(** * SensorRangeFinder: the range finder health checks of the EKF

    A shallow embedding of [src/EKF/SensorRangeFinder.hpp].  The class is a
    record of private members; every inline member function of the header is
    a function on that record.  C [float] is IEEE-754 binary32, modelled by
    the standard library's [spec_float] at precision 24 and maximal exponent
    128 (NaN payloads are not distinguished); [uint64_t] is a [Z]; [bool] is
    [bool]. *)

From Stdlib Require Import ZArith Bool List Lia.
From Stdlib Require Import Floats.SpecFloat.
Import ListNotations.

Local Open Scope Z_scope.

(** ** binary32 *)

Module F32.

Definition prec : Z := 24.
Definition emax : Z := 128.

Definition float32 : Type := spec_float.

Definition zero : float32 := S754_zero false.

(** Conversion of an integer, rounding to nearest even. *)
Definition of_Z (n : Z) : float32 := binary_normalize prec emax n 0 false.

(** A decimal literal [num/den] with both parts exact in binary32: the
    correctly rounded quotient is the value of the literal. *)
Definition of_ratio (num den : Z) : float32 :=
  SFdiv prec emax (of_Z num) (of_Z den).

Definition fsub (x y : float32) : float32 := SFsub prec emax x y.
Definition fadd (x y : float32) : float32 := SFadd prec emax x y.

(** [fabsf] *)
Definition fabsf (x : float32) : float32 := SFabs x.

(** The C comparisons [x < y], [x > y], [x <= y], [x == y]; all are false
    as soon as one side is a NaN. *)
Definition flt (x y : float32) : bool := SFltb x y.
Definition fgt (x y : float32) : bool := SFltb y x.
Definition fle (x y : float32) : bool := SFleb x y.
Definition feq (x y : float32) : bool := SFeqb x y.

(** The implicit conversion [float -> bool] of C++: a zero of either sign
    gives [false], every other value (NaN included) gives [true]. *)
Definition to_bool (x : float32) : bool :=
  match x with
  | S754_zero _ => false
  | _ => true
  end.

(** [FLT_EPSILON], 2^-23. *)
Definition FLT_EPSILON : float32 := S754_finite false 8388608 (-46).

End F32.

Import F32.

(** ** libm

    [sinf] and [cosf] belong to the C library, not to this code: the class
    below is their interface.  Each call is also recorded, so that whether a
    member function evaluates them can be stated. *)

Class Libm : Type := {
  sinf : float32 -> float32;
  cosf : float32 -> float32
}.

Inductive libm_call : Type :=
| call_sinf (x : float32)
| call_cosf (x : float32).

(** First-order expansions at 0, to run the operations on concrete inputs.
    Every statement below is made for an arbitrary [Libm]. *)
Definition libm_first_order : Libm :=
  {| sinf := fun x => x; cosf := fun _ => of_Z 1 |}.

(** ** Samples *)

(** Modelled from the spec: the struct [rangeSample] of namespace
    [estimator], declared in a header that is not part of the sources at
    hand.  The spec's data model gives it a timestamp in microseconds, a
    float distance in metres and an integer quality indicator; the field
    name [rng] is the one the header uses. *)
Record rangeSample : Type := {
  rng : float32;
  time_us : Z;
  quality : Z
}.

(** Value initialisation, [rangeSample{}]. *)
Definition rangeSample_zero : rangeSample :=
  {| rng := zero; time_us := 0; quality := 0 |}.

(** ** The private members *)

Record SensorRangeFinder : Type := {
  _newest_sample : rangeSample;
  _range_sample_delayed : rangeSample;
  _range_data_ready : bool;
  _rng_hgt_valid : bool;
  _is_stuck : bool;
  _dt_last_range_update_filt_us : float32;
  _time_last_rng_ready : Z;
  _time_bad_rng_signal_quality : Z;
  _rng_stuck_min_val : float32;
  _rng_stuck_max_val : float32;
  _tilt : float32;
  _sin_tilt_rng : float32;
  _cos_tilt_rng : float32;
  _R_rng_to_earth_2_2 : float32;
  _rng_valid_min_val : float32;
  _rng_valid_max_val : float32;
  _range_cos_max_tilt : float32;
  _range_stuck_threshold : float32;
  _range_signal_hysteresis_ms : Z
}.

(** [static constexpr float _dt_update{0.01f}] *)
Definition _dt_update : float32 := of_ratio 1 100.

(** The default member initialisers: [SensorRangeFinder() = default]. *)
Definition default_constructed : SensorRangeFinder := {|
  _newest_sample := rangeSample_zero;
  _range_sample_delayed := rangeSample_zero;
  _range_data_ready := false;
  _rng_hgt_valid := false;
  _is_stuck := false;
  _dt_last_range_update_filt_us := zero;
  _time_last_rng_ready := 0;
  _time_bad_rng_signal_quality := 0;
  _rng_stuck_min_val := zero;
  _rng_stuck_max_val := zero;
  _tilt := zero;
  _sin_tilt_rng := zero;
  _cos_tilt_rng := zero;
  _R_rng_to_earth_2_2 := zero;
  _rng_valid_min_val := zero;
  _rng_valid_max_val := zero;
  _range_cos_max_tilt := of_ratio 7071 10000;
  _range_stuck_threshold := of_ratio 1 10;
  _range_signal_hysteresis_ms := 1000
|}.

(** *** Assignments to members

    One function per member (or group of members) that some member function
    assigns; all other members are copied. *)

Definition with_newest_sample (v : rangeSample) (s : SensorRangeFinder) :=
  {| _newest_sample := v;
     _range_sample_delayed := _range_sample_delayed s;
     _range_data_ready := _range_data_ready s;
     _rng_hgt_valid := _rng_hgt_valid s;
     _is_stuck := _is_stuck s;
     _dt_last_range_update_filt_us := _dt_last_range_update_filt_us s;
     _time_last_rng_ready := _time_last_rng_ready s;
     _time_bad_rng_signal_quality := _time_bad_rng_signal_quality s;
     _rng_stuck_min_val := _rng_stuck_min_val s;
     _rng_stuck_max_val := _rng_stuck_max_val s;
     _tilt := _tilt s;
     _sin_tilt_rng := _sin_tilt_rng s;
     _cos_tilt_rng := _cos_tilt_rng s;
     _R_rng_to_earth_2_2 := _R_rng_to_earth_2_2 s;
     _rng_valid_min_val := _rng_valid_min_val s;
     _rng_valid_max_val := _rng_valid_max_val s;
     _range_cos_max_tilt := _range_cos_max_tilt s;
     _range_stuck_threshold := _range_stuck_threshold s;
     _range_signal_hysteresis_ms := _range_signal_hysteresis_ms s |}.

Definition with_range_sample_delayed (v : rangeSample) (s : SensorRangeFinder) :=
  {| _newest_sample := _newest_sample s;
     _range_sample_delayed := v;
     _range_data_ready := _range_data_ready s;
     _rng_hgt_valid := _rng_hgt_valid s;
     _is_stuck := _is_stuck s;
     _dt_last_range_update_filt_us := _dt_last_range_update_filt_us s;
     _time_last_rng_ready := _time_last_rng_ready s;
     _time_bad_rng_signal_quality := _time_bad_rng_signal_quality s;
     _rng_stuck_min_val := _rng_stuck_min_val s;
     _rng_stuck_max_val := _rng_stuck_max_val s;
     _tilt := _tilt s;
     _sin_tilt_rng := _sin_tilt_rng s;
     _cos_tilt_rng := _cos_tilt_rng s;
     _R_rng_to_earth_2_2 := _R_rng_to_earth_2_2 s;
     _rng_valid_min_val := _rng_valid_min_val s;
     _rng_valid_max_val := _rng_valid_max_val s;
     _range_cos_max_tilt := _range_cos_max_tilt s;
     _range_stuck_threshold := _range_stuck_threshold s;
     _range_signal_hysteresis_ms := _range_signal_hysteresis_ms s |}.

Definition with_range_data_ready (v : bool) (s : SensorRangeFinder) :=
  {| _newest_sample := _newest_sample s;
     _range_sample_delayed := _range_sample_delayed s;
     _range_data_ready := v;
     _rng_hgt_valid := _rng_hgt_valid s;
     _is_stuck := _is_stuck s;
     _dt_last_range_update_filt_us := _dt_last_range_update_filt_us s;
     _time_last_rng_ready := _time_last_rng_ready s;
     _time_bad_rng_signal_quality := _time_bad_rng_signal_quality s;
     _rng_stuck_min_val := _rng_stuck_min_val s;
     _rng_stuck_max_val := _rng_stuck_max_val s;
     _tilt := _tilt s;
     _sin_tilt_rng := _sin_tilt_rng s;
     _cos_tilt_rng := _cos_tilt_rng s;
     _R_rng_to_earth_2_2 := _R_rng_to_earth_2_2 s;
     _rng_valid_min_val := _rng_valid_min_val s;
     _rng_valid_max_val := _rng_valid_max_val s;
     _range_cos_max_tilt := _range_cos_max_tilt s;
     _range_stuck_threshold := _range_stuck_threshold s;
     _range_signal_hysteresis_ms := _range_signal_hysteresis_ms s |}.

Definition with_rng_hgt_valid (v : bool) (s : SensorRangeFinder) :=
  {| _newest_sample := _newest_sample s;
     _range_sample_delayed := _range_sample_delayed s;
     _range_data_ready := _range_data_ready s;
     _rng_hgt_valid := v;
     _is_stuck := _is_stuck s;
     _dt_last_range_update_filt_us := _dt_last_range_update_filt_us s;
     _time_last_rng_ready := _time_last_rng_ready s;
     _time_bad_rng_signal_quality := _time_bad_rng_signal_quality s;
     _rng_stuck_min_val := _rng_stuck_min_val s;
     _rng_stuck_max_val := _rng_stuck_max_val s;
     _tilt := _tilt s;
     _sin_tilt_rng := _sin_tilt_rng s;
     _cos_tilt_rng := _cos_tilt_rng s;
     _R_rng_to_earth_2_2 := _R_rng_to_earth_2_2 s;
     _rng_valid_min_val := _rng_valid_min_val s;
     _rng_valid_max_val := _rng_valid_max_val s;
     _range_cos_max_tilt := _range_cos_max_tilt s;
     _range_stuck_threshold := _range_stuck_threshold s;
     _range_signal_hysteresis_ms := _range_signal_hysteresis_ms s |}.

Definition with_tilt_trig (sn cs : float32) (s : SensorRangeFinder) :=
  {| _newest_sample := _newest_sample s;
     _range_sample_delayed := _range_sample_delayed s;
     _range_data_ready := _range_data_ready s;
     _rng_hgt_valid := _rng_hgt_valid s;
     _is_stuck := _is_stuck s;
     _dt_last_range_update_filt_us := _dt_last_range_update_filt_us s;
     _time_last_rng_ready := _time_last_rng_ready s;
     _time_bad_rng_signal_quality := _time_bad_rng_signal_quality s;
     _rng_stuck_min_val := _rng_stuck_min_val s;
     _rng_stuck_max_val := _rng_stuck_max_val s;
     _tilt := _tilt s;
     _sin_tilt_rng := sn;
     _cos_tilt_rng := cs;
     _R_rng_to_earth_2_2 := _R_rng_to_earth_2_2 s;
     _rng_valid_min_val := _rng_valid_min_val s;
     _rng_valid_max_val := _rng_valid_max_val s;
     _range_cos_max_tilt := _range_cos_max_tilt s;
     _range_stuck_threshold := _range_stuck_threshold s;
     _range_signal_hysteresis_ms := _range_signal_hysteresis_ms s |}.

Definition with_range_cos_max_tilt (v : float32) (s : SensorRangeFinder) :=
  {| _newest_sample := _newest_sample s;
     _range_sample_delayed := _range_sample_delayed s;
     _range_data_ready := _range_data_ready s;
     _rng_hgt_valid := _rng_hgt_valid s;
     _is_stuck := _is_stuck s;
     _dt_last_range_update_filt_us := _dt_last_range_update_filt_us s;
     _time_last_rng_ready := _time_last_rng_ready s;
     _time_bad_rng_signal_quality := _time_bad_rng_signal_quality s;
     _rng_stuck_min_val := _rng_stuck_min_val s;
     _rng_stuck_max_val := _rng_stuck_max_val s;
     _tilt := _tilt s;
     _sin_tilt_rng := _sin_tilt_rng s;
     _cos_tilt_rng := _cos_tilt_rng s;
     _R_rng_to_earth_2_2 := _R_rng_to_earth_2_2 s;
     _rng_valid_min_val := _rng_valid_min_val s;
     _rng_valid_max_val := _rng_valid_max_val s;
     _range_cos_max_tilt := v;
     _range_stuck_threshold := _range_stuck_threshold s;
     _range_signal_hysteresis_ms := _range_signal_hysteresis_ms s |}.

Definition with_rng_valid_limits (mn mx : float32) (s : SensorRangeFinder) :=
  {| _newest_sample := _newest_sample s;
     _range_sample_delayed := _range_sample_delayed s;
     _range_data_ready := _range_data_ready s;
     _rng_hgt_valid := _rng_hgt_valid s;
     _is_stuck := _is_stuck s;
     _dt_last_range_update_filt_us := _dt_last_range_update_filt_us s;
     _time_last_rng_ready := _time_last_rng_ready s;
     _time_bad_rng_signal_quality := _time_bad_rng_signal_quality s;
     _rng_stuck_min_val := _rng_stuck_min_val s;
     _rng_stuck_max_val := _rng_stuck_max_val s;
     _tilt := _tilt s;
     _sin_tilt_rng := _sin_tilt_rng s;
     _cos_tilt_rng := _cos_tilt_rng s;
     _R_rng_to_earth_2_2 := _R_rng_to_earth_2_2 s;
     _rng_valid_min_val := mn;
     _rng_valid_max_val := mx;
     _range_cos_max_tilt := _range_cos_max_tilt s;
     _range_stuck_threshold := _range_stuck_threshold s;
     _range_signal_hysteresis_ms := _range_signal_hysteresis_ms s |}.

(** ** The member functions defined in the header *)

Definition isHealthy (s : SensorRangeFinder) : bool := _rng_hgt_valid s.

Definition isNewHealthyData (s : SensorRangeFinder) : bool :=
  _range_data_ready s && _rng_hgt_valid s.

Definition isDelayedHealthyData (s : SensorRangeFinder) : bool :=
  _range_data_ready s && _rng_hgt_valid s.

Definition setNewestSample (sample : rangeSample) (s : SensorRangeFinder)
  : SensorRangeFinder :=
  with_newest_sample sample s.

Definition setDelayedSample (sample : rangeSample) (s : SensorRangeFinder)
  : SensorRangeFinder :=
  with_range_data_ready true (with_range_sample_delayed sample s).

(** [setTilt], with the libm calls it makes.  The guard reads the member
    [_tilt]; no statement of the body assigns it. *)
Definition setTilt_run `{Libm} (new_tilt range_cos_max_tilt : float32)
    (s : SensorRangeFinder) : list libm_call * SensorRangeFinder :=
  let '(calls, s1) :=
    if fgt (fabsf (fsub (_tilt s) new_tilt)) FLT_EPSILON
    then ([call_sinf new_tilt; call_cosf new_tilt],
          with_tilt_trig (sinf new_tilt) (cosf new_tilt) s)
    else ([], s) in
  (calls, with_range_cos_max_tilt range_cos_max_tilt s1).

Definition setTilt `{Libm} (new_tilt range_cos_max_tilt : float32)
    (s : SensorRangeFinder) : SensorRangeFinder :=
  snd (setTilt_run new_tilt range_cos_max_tilt s).

Definition setTilt_calls `{Libm} (new_tilt range_cos_max_tilt : float32)
    (s : SensorRangeFinder) : list libm_call :=
  fst (setTilt_run new_tilt range_cos_max_tilt s).

Definition setLimits (min_distance max_distance : float32)
    (s : SensorRangeFinder) : SensorRangeFinder :=
  with_rng_valid_limits min_distance max_distance s.

Definition getRToEarth (s : SensorRangeFinder) : float32 :=
  _R_rng_to_earth_2_2 s.

Definition setDelayedRng (r : float32) (s : SensorRangeFinder)
  : SensorRangeFinder :=
  with_range_sample_delayed
    {| rng := r;
       time_us := time_us (_range_sample_delayed s);
       quality := quality (_range_sample_delayed s) |} s.

Definition getDelayedRng (s : SensorRangeFinder) : float32 :=
  rng (_range_sample_delayed s).

Definition setDataReadiness (is_ready : bool) (s : SensorRangeFinder)
  : SensorRangeFinder :=
  with_range_data_ready is_ready s.

Definition setValidity (is_valid : bool) (s : SensorRangeFinder)
  : SensorRangeFinder :=
  with_rng_hgt_valid is_valid s.

Definition isStuck (s : SensorRangeFinder) : bool := _is_stuck s.

Definition isTiltOk (s : SensorRangeFinder) : bool :=
  fgt (_R_rng_to_earth_2_2 s) (_range_cos_max_tilt s).

(** Declared [bool]: the stored float is converted on return. *)
Definition getValidMinVal (s : SensorRangeFinder) : bool :=
  to_bool (_rng_valid_min_val s).

Definition getValidMaxVal (s : SensorRangeFinder) : bool :=
  to_bool (_rng_valid_max_val s).

(** [getSampleDelayedAddress] hands out [&_range_sample_delayed]; what a
    caller can do with the pointer is store a sample through it. *)
Definition store_through_SampleDelayedAddress (sample : rangeSample)
    (s : SensorRangeFinder) : SensorRangeFinder :=
  with_range_sample_delayed sample s.

(** The literal [2e6f]. *)
Definition two_seconds_us : float32 := of_Z 2000000.

Definition isRangeDataContinuous (s : SensorRangeFinder) : bool :=
  flt (_dt_last_range_update_filt_us s) two_seconds_us.

(** ** The public operations that change the object

    Those whose body is in the header; [runChecks] is declared there and
    defined elsewhere. *)

Inductive operation : Type :=
| OpSetNewestSample (sample : rangeSample)
| OpSetDelayedSample (sample : rangeSample)
| OpSetTilt (new_tilt range_cos_max_tilt : float32)
| OpSetLimits (min_distance max_distance : float32)
| OpSetDelayedRng (r : float32)
| OpSetDataReadiness (is_ready : bool)
| OpSetValidity (is_valid : bool)
| OpStoreSampleDelayed (sample : rangeSample).

Definition step `{Libm} (o : operation) (s : SensorRangeFinder)
  : SensorRangeFinder :=
  match o with
  | OpSetNewestSample sample => setNewestSample sample s
  | OpSetDelayedSample sample => setDelayedSample sample s
  | OpSetTilt a c => setTilt a c s
  | OpSetLimits mn mx => setLimits mn mx s
  | OpSetDelayedRng r => setDelayedRng r s
  | OpSetDataReadiness b => setDataReadiness b s
  | OpSetValidity b => setValidity b s
  | OpStoreSampleDelayed sample => store_through_SampleDelayedAddress sample s
  end.

Definition run `{Libm} (os : list operation) (s : SensorRangeFinder)
  : SensorRangeFinder :=
  fold_left (fun acc o => step o acc) os s.

(** The states a freshly constructed object can be brought to. *)
Inductive reachable `{Libm} : SensorRangeFinder -> Prop :=
| reachable_default : reachable default_constructed
| reachable_step : forall o s, reachable s -> reachable (step o s).

(** Members that no member function defined in the header assigns: the
    cached vertical-alignment cosine and the filtered interval.  These two
    assignments serve to write down states in which they hold a given
    value. *)

Definition with_R_rng_to_earth_2_2 (v : float32) (s : SensorRangeFinder) :=
  {| _newest_sample := _newest_sample s;
     _range_sample_delayed := _range_sample_delayed s;
     _range_data_ready := _range_data_ready s;
     _rng_hgt_valid := _rng_hgt_valid s;
     _is_stuck := _is_stuck s;
     _dt_last_range_update_filt_us := _dt_last_range_update_filt_us s;
     _time_last_rng_ready := _time_last_rng_ready s;
     _time_bad_rng_signal_quality := _time_bad_rng_signal_quality s;
     _rng_stuck_min_val := _rng_stuck_min_val s;
     _rng_stuck_max_val := _rng_stuck_max_val s;
     _tilt := _tilt s;
     _sin_tilt_rng := _sin_tilt_rng s;
     _cos_tilt_rng := _cos_tilt_rng s;
     _R_rng_to_earth_2_2 := v;
     _rng_valid_min_val := _rng_valid_min_val s;
     _rng_valid_max_val := _rng_valid_max_val s;
     _range_cos_max_tilt := _range_cos_max_tilt s;
     _range_stuck_threshold := _range_stuck_threshold s;
     _range_signal_hysteresis_ms := _range_signal_hysteresis_ms s |}.

Definition with_dt_last_range_update_filt_us (dt : float32) (s : SensorRangeFinder) :=
  {| _newest_sample := _newest_sample s;
     _range_sample_delayed := _range_sample_delayed s;
     _range_data_ready := _range_data_ready s;
     _rng_hgt_valid := _rng_hgt_valid s;
     _is_stuck := _is_stuck s;
     _dt_last_range_update_filt_us := dt;
     _time_last_rng_ready := _time_last_rng_ready s;
     _time_bad_rng_signal_quality := _time_bad_rng_signal_quality s;
     _rng_stuck_min_val := _rng_stuck_min_val s;
     _rng_stuck_max_val := _rng_stuck_max_val s;
     _tilt := _tilt s;
     _sin_tilt_rng := _sin_tilt_rng s;
     _cos_tilt_rng := _cos_tilt_rng s;
     _R_rng_to_earth_2_2 := _R_rng_to_earth_2_2 s;
     _rng_valid_min_val := _rng_valid_min_val s;
     _rng_valid_max_val := _rng_valid_max_val s;
     _range_cos_max_tilt := _range_cos_max_tilt s;
     _range_stuck_threshold := _range_stuck_threshold s;
     _range_signal_hysteresis_ms := _range_signal_hysteresis_ms s |}.

(** ** Concrete inputs *)

(** [0.5f] and [30.0f] *)
Definition half : float32 := of_ratio 1 2.
Definition thirty : float32 := of_Z 30.

(** The default max-tilt cosine, [0.7071f]. *)
Definition cos_max_tilt_default : float32 := of_ratio 7071 10000.

Definition sample_5m : rangeSample :=
  {| rng := of_Z 5; time_us := 100000; quality := 100 |}.

(** A state whose vertical-alignment cosine sits exactly on the threshold. *)
Definition tilt_on_threshold : SensorRangeFinder :=
  with_R_rng_to_earth_2_2 cos_max_tilt_default default_constructed.

(** Validity forced on a fresh object, and after a delayed sample. *)
Definition forced_valid : SensorRangeFinder :=
  step (H := libm_first_order) (OpSetValidity true) default_constructed.

Definition ready_and_valid : SensorRangeFinder :=
  run (H := libm_first_order)
    [OpSetDelayedSample sample_5m; OpSetValidity true] default_constructed.

(** ** Validity behind readiness

    The two calls that can leave the validity flag on with the data-ready
    flag off are [setValidity(true)] made while no data is ready and
    [setDataReadiness(false)] made while the validity flag is on.  A call is
    in order when it is neither. *)
Definition call_in_order (o : operation) (s : SensorRangeFinder) : bool :=
  match o with
  | OpSetValidity true => _range_data_ready s
  | OpSetDataReadiness false => negb (_rng_hgt_valid s)
  | _ => true
  end.

(** The states a freshly constructed object is brought to by calls that are
    all in order. *)
Inductive reachable_in_order `{Libm} : SensorRangeFinder -> Prop :=
| in_order_default : reachable_in_order default_constructed
| in_order_step : forall o s,
    reachable_in_order s -> call_in_order o s = true ->
    reachable_in_order (step o s).

(** ** Members and footprints

    The members by name, to say which of them an operation assigns. *)

Inductive member : Type :=
| M_newest_sample | M_range_sample_delayed | M_range_data_ready
| M_rng_hgt_valid | M_is_stuck | M_dt_last_range_update_filt_us
| M_time_last_rng_ready | M_time_bad_rng_signal_quality
| M_rng_stuck_min_val | M_rng_stuck_max_val | M_tilt | M_sin_tilt_rng
| M_cos_tilt_rng | M_R_rng_to_earth_2_2 | M_rng_valid_min_val
| M_rng_valid_max_val | M_range_cos_max_tilt | M_range_stuck_threshold
| M_range_signal_hysteresis_ms.

Definition member_index (m : member) : nat :=
  match m with
  | M_newest_sample => 0 | M_range_sample_delayed => 1
  | M_range_data_ready => 2 | M_rng_hgt_valid => 3 | M_is_stuck => 4
  | M_dt_last_range_update_filt_us => 5 | M_time_last_rng_ready => 6
  | M_time_bad_rng_signal_quality => 7 | M_rng_stuck_min_val => 8
  | M_rng_stuck_max_val => 9 | M_tilt => 10 | M_sin_tilt_rng => 11
  | M_cos_tilt_rng => 12 | M_R_rng_to_earth_2_2 => 13
  | M_rng_valid_min_val => 14 | M_rng_valid_max_val => 15
  | M_range_cos_max_tilt => 16 | M_range_stuck_threshold => 17
  | M_range_signal_hysteresis_ms => 18
  end%nat.

Definition member_eqb (m1 m2 : member) : bool :=
  Nat.eqb (member_index m1) (member_index m2).

(** Two objects agree on a member. *)
Definition same_member (m : member) (s1 s2 : SensorRangeFinder) : Prop :=
  match m with
  | M_newest_sample => _newest_sample s1 = _newest_sample s2
  | M_range_sample_delayed => _range_sample_delayed s1 = _range_sample_delayed s2
  | M_range_data_ready => _range_data_ready s1 = _range_data_ready s2
  | M_rng_hgt_valid => _rng_hgt_valid s1 = _rng_hgt_valid s2
  | M_is_stuck => _is_stuck s1 = _is_stuck s2
  | M_dt_last_range_update_filt_us =>
      _dt_last_range_update_filt_us s1 = _dt_last_range_update_filt_us s2
  | M_time_last_rng_ready => _time_last_rng_ready s1 = _time_last_rng_ready s2
  | M_time_bad_rng_signal_quality =>
      _time_bad_rng_signal_quality s1 = _time_bad_rng_signal_quality s2
  | M_rng_stuck_min_val => _rng_stuck_min_val s1 = _rng_stuck_min_val s2
  | M_rng_stuck_max_val => _rng_stuck_max_val s1 = _rng_stuck_max_val s2
  | M_tilt => _tilt s1 = _tilt s2
  | M_sin_tilt_rng => _sin_tilt_rng s1 = _sin_tilt_rng s2
  | M_cos_tilt_rng => _cos_tilt_rng s1 = _cos_tilt_rng s2
  | M_R_rng_to_earth_2_2 => _R_rng_to_earth_2_2 s1 = _R_rng_to_earth_2_2 s2
  | M_rng_valid_min_val => _rng_valid_min_val s1 = _rng_valid_min_val s2
  | M_rng_valid_max_val => _rng_valid_max_val s1 = _rng_valid_max_val s2
  | M_range_cos_max_tilt => _range_cos_max_tilt s1 = _range_cos_max_tilt s2
  | M_range_stuck_threshold =>
      _range_stuck_threshold s1 = _range_stuck_threshold s2
  | M_range_signal_hysteresis_ms =>
      _range_signal_hysteresis_ms s1 = _range_signal_hysteresis_ms s2
  end.

(** The members an operation has an assignment to. *)
Definition assigned (o : operation) : list member :=
  match o with
  | OpSetNewestSample _ => [M_newest_sample]
  | OpSetDelayedSample _ => [M_range_sample_delayed; M_range_data_ready]
  | OpSetTilt _ _ => [M_sin_tilt_rng; M_cos_tilt_rng; M_range_cos_max_tilt]
  | OpSetLimits _ _ => [M_rng_valid_min_val; M_rng_valid_max_val]
  | OpSetDelayedRng _ => [M_range_sample_delayed]
  | OpSetDataReadiness _ => [M_range_data_ready]
  | OpSetValidity _ => [M_rng_hgt_valid]
  | OpStoreSampleDelayed _ => [M_range_sample_delayed]
  end.

Definition is_assigned (m : member) (o : operation) : bool :=
  existsb (member_eqb m) (assigned o).

Definition independent (o1 o2 : operation) : bool :=
  forallb (fun m => negb (is_assigned m o2)) (assigned o1).

(** ** What can be observed

    The [const] member functions whose body is in the header, together with
    the sample behind the pointer [getSampleDelayedAddress] returns.
    [canBeusedAsFailover] and [canResetOnSensor] are declared without a
    body and are not among them. *)

Definition observe (s : SensorRangeFinder) :=
  (isHealthy s, isNewHealthyData s, isDelayedHealthyData s,
   getRToEarth s, getDelayedRng s, isStuck s, isTiltOk s,
   getValidMinVal s, getValidMaxVal s, _range_sample_delayed s,
   isRangeDataContinuous s).

(** The object with its newest sample blanked. *)
Definition forget_newest (s : SensorRangeFinder) : SensorRangeFinder :=
  with_newest_sample rangeSample_zero s.

(** ** Integers in binary32

    The mantissa of a positive integer below 2^24, aligned on 24 digits. *)
Definition aligned (p : positive) : positive :=
  match (24 - Zpos (digits2_pos p))%Z with
  | Zpos k => Pos.iter xO p k
  | _ => p
  end.

(** ** More concrete inputs *)

(** A tilt of [0.5f] configured on a fresh object. *)
Definition tilted_half : SensorRangeFinder :=
  step (H := libm_first_order) (OpSetTilt half cos_max_tilt_default)
    default_constructed.

(** A state seen level: vertical-alignment cosine [1.0f]. *)
Definition seen_level : SensorRangeFinder :=
  with_R_rng_to_earth_2_2 (of_Z 1) default_constructed.

(** * Properties *)

(** ** binary32 comparison *)

Lemma SFcompare_swap (x y : spec_float) :
  SFcompare y x = option_map CompOpp (SFcompare x y).
Proof.
  destruct x as [sx | sx | | sx mx ex], y as [sy | sy | | sy my ey];
    try destruct sx; try destruct sy; try reflexivity.
  - simpl. rewrite (Z.compare_antisym ex ey).
    destruct (ex ?= ey) eqn:E; simpl; try reflexivity.
    rewrite CompOpp_involutive. f_equal.
    exact (Pos.compare_cont_antisym my mx Eq).
  - simpl. rewrite (Z.compare_antisym ex ey).
    destruct (ex ?= ey) eqn:E; simpl; try reflexivity.
    f_equal. symmetry. exact (Pos.compare_cont_antisym mx my Eq).
Qed.

Lemma fgt_iff_compare (x y : float32) :
  fgt x y = true <-> SFcompare x y = Some Gt.
Proof.
  unfold fgt, SFltb. rewrite (SFcompare_swap x y).
  destruct (SFcompare x y) as [[ | | ] | ]; simpl; split; congruence.
Qed.

Lemma fle_not_fgt (x y : float32) : fle x y = true -> fgt x y = false.
Proof.
  unfold fle, fgt, SFleb, SFltb. rewrite (SFcompare_swap x y).
  destruct (SFcompare x y) as [[ | | ] | ]; simpl; congruence.
Qed.

Lemma flt_iff_compare (x y : float32) :
  flt x y = true <-> SFcompare x y = Some Lt.
Proof.
  unfold flt, SFltb.
  destruct (SFcompare x y) as [[ | | ] | ]; split; congruence.
Qed.

Lemma to_bool_nonzero (x : float32) : to_bool x = negb (feq x zero).
Proof.
  destruct x as [sx | sx | | sx mx ex]; try destruct sx; reflexivity.
Qed.

(** The literals. *)
Example two_seconds_us_value :
  two_seconds_us = S754_finite false 16000000 (-3)
  /\ 16000000 = 2000000 * 2 ^ 3.
Proof. split; reflexivity. Qed.

Example cos_max_tilt_default_value :
  cos_max_tilt_default = S754_finite false 11863169 (-24).
Proof. reflexivity. Qed.

Example FLT_EPSILON_value : FLT_EPSILON = SFldexp prec emax (of_Z 1) (-23).
Proof. reflexivity. Qed.

(** ** Frame facts about [setTilt] *)

Lemma setTilt_tilt `{Libm} (a c : float32) (s : SensorRangeFinder) :
  _tilt (setTilt a c s) = _tilt s.
Proof.
  unfold setTilt, setTilt_run.
  destruct (fgt (fabsf (fsub (_tilt s) a)) FLT_EPSILON); reflexivity.
Qed.

Lemma setTilt_range_data_ready `{Libm} (a c : float32) (s : SensorRangeFinder) :
  _range_data_ready (setTilt a c s) = _range_data_ready s.
Proof.
  unfold setTilt, setTilt_run.
  destruct (fgt (fabsf (fsub (_tilt s) a)) FLT_EPSILON); reflexivity.
Qed.

Lemma setTilt_dt_filt `{Libm} (a c : float32) (s : SensorRangeFinder) :
  _dt_last_range_update_filt_us (setTilt a c s)
  = _dt_last_range_update_filt_us s.
Proof.
  unfold setTilt, setTilt_run.
  destruct (fgt (fabsf (fsub (_tilt s) a)) FLT_EPSILON); reflexivity.
Qed.

(** ** The claims *)

(** C2, as amended.  [setDelayedSample] overwrites the delayed slot with its
    argument and sets the data-ready flag; the flag after any operation is
    [true] after [setDelayedSample], the argument after [setDataReadiness],
    and unchanged after every other operation. *)
Theorem data_ready_writers `{Libm}
    (sample : rangeSample) (o : operation) (s : SensorRangeFinder) :
  (_range_sample_delayed (setDelayedSample sample s) = sample
   /\ _range_data_ready (setDelayedSample sample s) = true)
  /\ _range_data_ready (step o s)
     = match o with
       | OpSetDelayedSample _ => true
       | OpSetDataReadiness is_ready => is_ready
       | _ => _range_data_ready s
       end.
Proof.
  split; [split; reflexivity | ].
  destruct o; try reflexivity.
  apply setTilt_range_data_ready.
Qed.

(** C2 as stated fails: [setDataReadiness(true)] is another operation that
    turns the data-ready flag on. *)
Lemma setDataReadiness_sets_ready_too :
  ~ (forall (L : Libm) (o : operation) (s : SensorRangeFinder),
        _range_data_ready s = false ->
        _range_data_ready (step o s) = true ->
        exists sample, o = OpSetDelayedSample sample).
Proof.
  intro claim.
  destruct (claim libm_first_order (OpSetDataReadiness true)
              default_constructed eq_refl eq_refl) as [sample E].
  discriminate E.
Qed.

(** C3.  [setTilt] leaves [_tilt] as it was, so the guard compares every new
    angle with the initial one: a second call with the same angle makes the
    libm calls the first one made; on a fresh object a second call with
    angle [0.5f] evaluates [sinf] and [cosf] again, and a call with angle
    [0.0f] evaluates nothing and leaves both cached values at [0.0f]. *)
Theorem setTilt_compares_with_initial_tilt `{Libm} (c1 c2 : float32) :
  (forall a c s, _tilt (setTilt a c s) = _tilt s)
  /\ (forall a s, setTilt_calls a c2 (setTilt a c1 s) = setTilt_calls a c1 s)
  /\ setTilt_calls half c1 default_constructed
     = [call_sinf half; call_cosf half]
  /\ setTilt_calls half c2 (setTilt half c1 default_constructed)
     = [call_sinf half; call_cosf half]
  /\ setTilt_calls zero c1 default_constructed = []
  /\ _sin_tilt_rng (setTilt zero c1 default_constructed) = zero
  /\ _cos_tilt_rng (setTilt zero c1 default_constructed) = zero.
Proof.
  split; [intros; apply setTilt_tilt | ].
  split.
  - intros a s. unfold setTilt_calls, setTilt_run at 1.
    rewrite setTilt_tilt. unfold setTilt_run.
    destruct (fgt (fabsf (fsub (_tilt s) a)) FLT_EPSILON); reflexivity.
  - repeat split; reflexivity.
Qed.

(** C4.  [isNewHealthyData] and [isDelayedHealthyData] agree in every state,
    on the data-ready flag and-ed with what [isHealthy] returns. *)
Theorem healthy_data_predicates_agree (s : SensorRangeFinder) :
  isNewHealthyData s = isDelayedHealthyData s
  /\ isNewHealthyData s = _range_data_ready s && isHealthy s.
Proof. split; reflexivity. Qed.

(** C5, as amended.  In every state a fresh object is brought to by
    header-defined operations called in order (no [setValidity(true)] while
    the data-ready flag is off, no [setDataReadiness(false)] while the
    validity flag is on), validity implies data-ready.  Those two calls are
    exactly the ones that break the implication: from a state where it
    holds, it holds after an operation if and only if the call is in
    order. *)
Theorem validity_implies_ready_in_order `{Libm} :
  (forall s, reachable_in_order s ->
             isHealthy s = true -> _range_data_ready s = true)
  /\ (forall o s,
        (isHealthy s = true -> _range_data_ready s = true) ->
        ((isHealthy (step o s) = true -> _range_data_ready (step o s) = true)
         <-> call_in_order o s = true)).
Proof.
  assert (P : forall o s,
             (isHealthy s = true -> _range_data_ready s = true) ->
             ((isHealthy (step o s) = true
               -> _range_data_ready (step o s) = true)
              <-> call_in_order o s = true)).
  { intros o s I. unfold isHealthy in *.
    destruct o as [ | | a c | | | [ | ] | [ | ] | ]; cbn [step call_in_order];
      unfold setTilt, setTilt_run;
      try destruct (fgt (fabsf (fsub (_tilt s) a)) FLT_EPSILON);
      cbn; destruct (_rng_hgt_valid s), (_range_data_ready s);
      cbn in *; split; intros; try reflexivity; try congruence; auto. }
  split; [ | exact P].
  induction 1 as [ | o s R IH O]; [discriminate | ].
  apply (P o s IH). exact O.
Qed.

(** C5 as stated fails: [setValidity(true)] on a fresh object gives a
    reachable state whose validity flag is on and data-ready flag off. *)
Lemma validity_without_readiness :
  ~ (forall (L : Libm) (s : SensorRangeFinder),
        reachable s -> isHealthy s = true -> _range_data_ready s = true).
Proof.
  intro claim.
  assert (R : reachable (H := libm_first_order) forced_valid)
    by (apply reachable_step, reachable_default).
  specialize (claim libm_first_order forced_valid R eq_refl).
  discriminate claim.
Qed.

Lemma validity_implies_ready_in_order_witness :
  _range_data_ready ready_and_valid = true.
Proof.
  apply (proj1 (@validity_implies_ready_in_order libm_first_order)
           ready_and_valid).
  - exact (@in_order_step libm_first_order (OpSetValidity true) _
             (@in_order_step libm_first_order (OpSetDelayedSample sample_5m) _
                (@in_order_default libm_first_order) eq_refl) eq_refl).
  - reflexivity.
Defined.

(** C6.  [isTiltOk] is true exactly when the cached vertical-alignment
    cosine compares strictly greater than the max-tilt cosine; when it
    compares less than or equal (equal included) the answer is false. *)
Theorem isTiltOk_iff_strictly_greater (s : SensorRangeFinder) :
  (isTiltOk s = true
   <-> SFcompare (getRToEarth s) (_range_cos_max_tilt s) = Some Gt)
  /\ (fle (getRToEarth s) (_range_cos_max_tilt s) = true -> isTiltOk s = false)
  /\ (feq (getRToEarth s) (_range_cos_max_tilt s) = true -> isTiltOk s = false).
Proof.
  unfold isTiltOk, getRToEarth. split; [apply fgt_iff_compare | ].
  split; [apply fle_not_fgt | ].
  intro E. apply fle_not_fgt. unfold feq, SFeqb in E. unfold fle, SFleb.
  destruct (SFcompare (_R_rng_to_earth_2_2 s) (_range_cos_max_tilt s))
    as [[ | | ] | ]; congruence.
Qed.

Lemma isTiltOk_iff_strictly_greater_witness :
  isTiltOk tilt_on_threshold = false.
Proof.
  apply (proj1 (proj2 (isTiltOk_iff_strictly_greater tilt_on_threshold))).
  reflexivity.
Defined.

(** C7.  The data is continuous exactly when the filtered interval compares
    strictly less than the binary32 value 2,000,000; the bound is a literal
    of the code, and no operation changes the decision. *)
Theorem continuity_threshold_is_fixed `{Libm}
    (o : operation) (s : SensorRangeFinder) :
  (isRangeDataContinuous s = true
   <-> SFcompare (_dt_last_range_update_filt_us s) (of_Z 2000000) = Some Lt)
  /\ isRangeDataContinuous (step o s) = isRangeDataContinuous s.
Proof.
  split; [apply flt_iff_compare | ].
  unfold isRangeDataContinuous.
  destruct o; try reflexivity.
  simpl. now rewrite setTilt_dt_filt.
Qed.

(** C8.  The delayed distance written by [setDelayedRng], or carried by the
    sample given to [setDelayedSample], is what [getDelayedRng] returns. *)
Theorem delayed_rng_round_trip
    (r : float32) (sample : rangeSample) (s : SensorRangeFinder) :
  getDelayedRng (setDelayedRng r s) = r
  /\ getDelayedRng (setDelayedSample sample s) = rng sample.
Proof. split; reflexivity. Qed.

(** C9.  A default-constructed object is not healthy, not stuck, has no data
    ready (so neither healthy-data predicate holds), and has a quality
    hysteresis of 1000 ms. *)
Theorem default_constructed_flags :
  isHealthy default_constructed = false
  /\ isStuck default_constructed = false
  /\ _range_data_ready default_constructed = false
  /\ isNewHealthyData default_constructed = false
  /\ isDelayedHealthyData default_constructed = false
  /\ _range_signal_hysteresis_ms default_constructed = 1000.
Proof. repeat split; reflexivity. Qed.

(** C10.  After [setLimits min max], [getValidMinVal] and [getValidMaxVal]
    return a boolean, true exactly when the stored distance does not compare
    equal to zero; the limits [0.5f] and [30.0f] both read back as [true]. *)
Theorem valid_limit_getters_are_nonzero_tests
    (min_distance max_distance : float32) (s : SensorRangeFinder) :
  getValidMinVal (setLimits min_distance max_distance s)
  = negb (feq min_distance zero)
  /\ getValidMaxVal (setLimits min_distance max_distance s)
     = negb (feq max_distance zero)
  /\ getValidMinVal (setLimits half thirty s) = true
  /\ getValidMaxVal (setLimits half thirty s) = true
  /\ getValidMinVal (setLimits zero thirty s) = false.
Proof.
  repeat split; try reflexivity.
  - unfold getValidMinVal. simpl. apply to_bool_nonzero.
  - unfold getValidMaxVal. simpl. apply to_bool_nonzero.
Qed.

(** ** The checks on concrete inputs *)

(** Just below, at and just above two seconds. *)
Example continuity_boundary :
  isRangeDataContinuous
    (with_dt_last_range_update_filt_us (of_Z 1999999) default_constructed)
  = true
  /\ isRangeDataContinuous
       (with_dt_last_range_update_filt_us
          (S754_finite false 15999999 (-3)) default_constructed)
     = true
  /\ isRangeDataContinuous
       (with_dt_last_range_update_filt_us (of_Z 2000000) default_constructed)
     = false
  /\ isRangeDataContinuous
       (with_dt_last_range_update_filt_us (of_Z 2000001) default_constructed)
     = false
  /\ isRangeDataContinuous
       (with_dt_last_range_update_filt_us S754_nan default_constructed)
     = false.
Proof. repeat split; reflexivity. Qed.


(** * Further properties of the header's member functions *)

(** ** [setTilt] unfolded *)

Lemma setTilt_unfold `{Libm} (a c : float32) (s : SensorRangeFinder) :
  setTilt a c s
  = with_range_cos_max_tilt c
      (if fgt (fabsf (fsub (_tilt s) a)) FLT_EPSILON
       then with_tilt_trig (sinf a) (cosf a) s else s).
Proof.
  unfold setTilt, setTilt_run. destruct (fgt _ _); reflexivity.
Qed.

Lemma setTilt_calls_unfold `{Libm} (a c : float32) (s : SensorRangeFinder) :
  setTilt_calls a c s
  = if fgt (fabsf (fsub (_tilt s) a)) FLT_EPSILON
    then [call_sinf a; call_cosf a] else [].
Proof.
  unfold setTilt_calls, setTilt_run. destruct (fgt _ _); reflexivity.
Qed.

Lemma fabsf_fsub_zero (a : float32) : fabsf (fsub zero a) = fabsf a.
Proof. destruct a as [[ | ] | [ | ] | | [ | ] m e]; reflexivity. Qed.

Lemma reachable_tilt_zero `{Libm} (s : SensorRangeFinder) :
  reachable s -> _tilt s = zero.
Proof.
  induction 1 as [ | o s R IH]; [reflexivity | ].
  destruct o; try exact IH. simpl. now rewrite setTilt_tilt.
Qed.

Lemma ready_and_valid_reachable :
  reachable (H := libm_first_order) ready_and_valid.
Proof.
  exact (@reachable_step libm_first_order (OpSetValidity true) _
           (@reachable_step libm_first_order (OpSetDelayedSample sample_5m) _
              (@reachable_default libm_first_order))).
Qed.

Lemma tilted_half_reachable : reachable (H := libm_first_order) tilted_half.
Proof. apply reachable_step, reachable_default. Qed.

(** ** What the setters leave alone *)

(** X1.  Whatever sequence of header-defined operations is applied to a
    fresh object, the state of the checks stays as constructed: not stuck,
    cached vertical-alignment cosine [0.0f], filtered interval [0.0f] (hence
    continuous), stuck threshold [0.1f], hysteresis 1000 ms; and [isTiltOk]
    is then the test "0 > configured max-tilt cosine". *)
Theorem header_setters_keep_check_state `{Libm} (s : SensorRangeFinder) :
  reachable s ->
  isStuck s = false
  /\ getRToEarth s = zero
  /\ _dt_last_range_update_filt_us s = zero
  /\ isRangeDataContinuous s = true
  /\ isTiltOk s = fgt zero (_range_cos_max_tilt s)
  /\ _range_stuck_threshold s = of_ratio 1 10
  /\ _range_signal_hysteresis_ms s = 1000.
Proof.
  intro R.
  assert (I : _is_stuck s = false /\ _R_rng_to_earth_2_2 s = zero
              /\ _dt_last_range_update_filt_us s = zero
              /\ _range_stuck_threshold s = of_ratio 1 10
              /\ _range_signal_hysteresis_ms s = 1000).
  { induction R as [ | o s R IH]; [repeat split; reflexivity | ].
    destruct o; try exact IH.
    simpl. rewrite setTilt_unfold. destruct (fgt _ _); exact IH. }
  destruct I as (I1 & I2 & I3 & I4 & I5).
  unfold isStuck, getRToEarth, isRangeDataContinuous, isTiltOk.
  rewrite I1, I2, I3, I4, I5. repeat split; reflexivity.
Qed.

Lemma header_setters_keep_check_state_witness :
  isStuck ready_and_valid = false
  /\ getRToEarth ready_and_valid = zero
  /\ _dt_last_range_update_filt_us ready_and_valid = zero
  /\ isRangeDataContinuous ready_and_valid = true
  /\ isTiltOk ready_and_valid = fgt zero (_range_cos_max_tilt ready_and_valid)
  /\ _range_stuck_threshold ready_and_valid = of_ratio 1 10
  /\ _range_signal_hysteresis_ms ready_and_valid = 1000.
Proof.
  apply (@header_setters_keep_check_state libm_first_order ready_and_valid).
  exact ready_and_valid_reachable.
Defined.

(** X2.  On an object reached through the header's operations, [setTilt]
    evaluates [sinf] and [cosf] exactly when the magnitude of the new angle
    exceeds [FLT_EPSILON], whatever angle was configured before. *)
Theorem setTilt_recomputes_iff_angle_nonzero `{Libm}
    (a c : float32) (s : SensorRangeFinder) :
  reachable s ->
  setTilt_calls a c s
  = if fgt (fabsf a) FLT_EPSILON then [call_sinf a; call_cosf a] else [].
Proof.
  intro R. rewrite setTilt_calls_unfold, (reachable_tilt_zero s R).
  now rewrite fabsf_fsub_zero.
Qed.

Lemma setTilt_recomputes_iff_angle_nonzero_witness :
  setTilt_calls (H := libm_first_order) half cos_max_tilt_default tilted_half
  = if fgt (fabsf half) FLT_EPSILON
    then [call_sinf half; call_cosf half] else [].
Proof.
  apply (@setTilt_recomputes_iff_angle_nonzero libm_first_order).
  exact tilted_half_reachable.
Defined.

(** X3.  On an object reached through the header's operations, the cached
    sine and cosine are either both the initial [0.0f], or the [sinf] and
    [cosf] of one and the same angle, whose magnitude exceeds
    [FLT_EPSILON]. *)
Theorem cached_trig_of_one_angle `{Libm} (s : SensorRangeFinder) :
  reachable s ->
  (_sin_tilt_rng s = zero /\ _cos_tilt_rng s = zero)
  \/ exists a, fgt (fabsf a) FLT_EPSILON = true
               /\ _sin_tilt_rng s = sinf a /\ _cos_tilt_rng s = cosf a.
Proof.
  induction 1 as [ | o s R IH]; [left; split; reflexivity | ].
  destruct o; try exact IH.
  simpl. rewrite setTilt_unfold, (reachable_tilt_zero s R), fabsf_fsub_zero.
  destruct (fgt (fabsf new_tilt) FLT_EPSILON) eqn:G; [ | exact IH].
  right. exists new_tilt. repeat split. exact G.
Qed.

Lemma cached_trig_of_one_angle_witness :
  (_sin_tilt_rng tilted_half = zero /\ _cos_tilt_rng tilted_half = zero)
  \/ exists a, fgt (fabsf a) FLT_EPSILON = true
               /\ _sin_tilt_rng tilted_half = sinf (Libm := libm_first_order) a
               /\ _cos_tilt_rng tilted_half = cosf (Libm := libm_first_order) a.
Proof.
  apply (@cached_trig_of_one_angle libm_first_order tilted_half).
  exact tilted_half_reachable.
Defined.

(** X4.  Two calls of [setTilt] in a row: when the second angle passes the
    guard the first call is forgotten altogether; when it does not, the
    sine and cosine of the first angle stay cached and only the max-tilt
    cosine is replaced. *)
Theorem setTilt_after_setTilt `{Libm}
    (a1 c1 a2 c2 : float32) (s : SensorRangeFinder) :
  setTilt a2 c2 (setTilt a1 c1 s)
  = if fgt (fabsf (fsub (_tilt s) a2)) FLT_EPSILON
    then setTilt a2 c2 s
    else with_range_cos_max_tilt c2 (setTilt a1 c1 s).
Proof.
  rewrite (setTilt_unfold a2 c2 (setTilt a1 c1 s)), setTilt_tilt.
  destruct (fgt (fabsf (fsub (_tilt s) a2)) FLT_EPSILON) eqn:G;
    [ | reflexivity].
  rewrite !setTilt_unfold, G.
  destruct (fgt (fabsf (fsub (_tilt s) a1)) FLT_EPSILON); reflexivity.
Qed.

(** ** The newest sample *)

Lemma step_forget_newest `{Libm} (o : operation) (s1 s2 : SensorRangeFinder) :
  forget_newest s1 = forget_newest s2 ->
  forget_newest (step o s1) = forget_newest (step o s2).
Proof.
  destruct s1, s2. unfold forget_newest, with_newest_sample. simpl.
  intro E.
  injection E as -> -> -> -> -> -> -> -> -> -> -> -> -> -> -> -> -> ->.
  destruct o; simpl; try reflexivity.
  unfold setTilt, setTilt_run. simpl.
  destruct (fgt _ _); reflexivity.
Qed.

Lemma observe_forget_newest (s1 s2 : SensorRangeFinder) :
  forget_newest s1 = forget_newest s2 -> observe s1 = observe s2.
Proof.
  destruct s1, s2. unfold forget_newest, with_newest_sample. simpl.
  intro E.
  injection E as -> -> -> -> -> -> -> -> -> -> -> -> -> -> -> -> -> ->.
  reflexivity.
Qed.

Lemma run_forget_newest `{Libm} (os : list operation) :
  forall s1 s2,
    forget_newest s1 = forget_newest s2 ->
    forget_newest (run os s1) = forget_newest (run os s2).
Proof.
  induction os as [ | o os IH]; intros s1 s2 E; simpl.
  - exact E.
  - apply IH. now apply step_forget_newest.
Qed.

(** X5.  No member function defined in the header reads the newest sample:
    after [setNewestSample], and after any further header-defined
    operations, each of [isHealthy], [isNewHealthyData],
    [isDelayedHealthyData], [getRToEarth], [getDelayedRng], [isStuck],
    [isTiltOk], [getValidMinVal], [getValidMaxVal], [isRangeDataContinuous]
    and a read through [getSampleDelayedAddress] returns what it would have
    returned without the call.  Nothing is said of the functions declared
    without a body. *)
Theorem newest_sample_is_never_read `{Libm}
    (os : list operation) (sample : rangeSample) (s : SensorRangeFinder) :
  observe (run os (setNewestSample sample s)) = observe (run os s).
Proof.
  apply observe_forget_newest, run_forget_newest. reflexivity.
Qed.

(** ** The delayed sample *)

(** X6.  [getDelayedRng] and [setDelayedRng] form a lens on the delayed
    distance: writing back what was read changes nothing, the last of two
    writes wins, [setDelayedSample] erases an earlier [setDelayedRng], and
    [setDelayedRng] after [setDelayedSample] keeps that sample's timestamp
    and quality; [setDelayedRng] never touches the data-ready flag. *)
Theorem delayed_rng_lens
    (r r1 r2 : float32) (sample : rangeSample) (s : SensorRangeFinder) :
  setDelayedRng (getDelayedRng s) s = s
  /\ setDelayedRng r2 (setDelayedRng r1 s) = setDelayedRng r2 s
  /\ setDelayedSample sample (setDelayedRng r s) = setDelayedSample sample s
  /\ _range_sample_delayed (setDelayedRng r (setDelayedSample sample s))
     = {| rng := r; time_us := time_us sample; quality := quality sample |}
  /\ _range_data_ready (setDelayedRng r s) = _range_data_ready s.
Proof.
  repeat split; try reflexivity.
  destruct s as [n [dr dt dq]]. reflexivity.
Qed.

(** ** Footprints *)

(** X7.  An operation leaves every member it has no assignment to as it
    was; in particular the members no header-defined operation assigns
    ([_tilt], the stuck window and flag, the filtered interval, the two
    timestamps, the cached cosine, the stuck threshold, the hysteresis)
    never change. *)
Theorem operations_assign_only_their_members `{Libm}
    (o : operation) (m : member) (s : SensorRangeFinder) :
  is_assigned m o = false -> same_member m (step o s) s.
Proof.
  destruct o; cbn [step]; try rewrite setTilt_unfold;
    try destruct (fgt _ _);
    destruct m; cbn; intro E; try reflexivity; discriminate E.
Qed.

Lemma operations_assign_only_their_members_witness :
  same_member M_range_data_ready
    (step (H := libm_first_order) (OpSetDelayedRng half) ready_and_valid)
    ready_and_valid.
Proof.
  apply (@operations_assign_only_their_members libm_first_order
           (OpSetDelayedRng half) M_range_data_ready ready_and_valid).
  reflexivity.
Defined.

(** X8.  Two operations that assign no member in common can be applied in
    either order. *)
Theorem independent_operations_commute `{Libm}
    (o1 o2 : operation) (s : SensorRangeFinder) :
  independent o1 o2 = true -> step o1 (step o2 s) = step o2 (step o1 s).
Proof.
  destruct o1, o2;
    cbn [independent assigned forallb is_assigned existsb
         member_eqb member_index Nat.eqb negb orb andb];
    intro E; try discriminate E; cbn [step];
    rewrite ?setTilt_unfold; cbn;
    try destruct (fgt _ _); reflexivity.
Qed.

Lemma independent_operations_commute_witness :
  step (H := libm_first_order) (OpSetTilt half cos_max_tilt_default)
    (step (H := libm_first_order) (OpSetDelayedSample sample_5m)
       default_constructed)
  = step (H := libm_first_order) (OpSetDelayedSample sample_5m)
      (step (H := libm_first_order) (OpSetTilt half cos_max_tilt_default)
         default_constructed).
Proof.
  apply (@independent_operations_commute libm_first_order
           (OpSetTilt half cos_max_tilt_default)
           (OpSetDelayedSample sample_5m) default_constructed).
  reflexivity.
Defined.

(** ** Order on binary32 *)

Ltac order_cases :=
  repeat match goal with
  | |- context [(?a ?= ?b)%Z] =>
      destruct (Z.compare_spec a b); subst
  | |- context [Pos.compare_cont Eq ?p ?q] =>
      change (Pos.compare_cont Eq p q) with (p ?= q)%positive;
      destruct (Pos.compare_spec p q); subst
  | H : context [(?a ?= ?b)%Z] |- _ =>
      destruct (Z.compare_spec a b); subst
  | H : context [Pos.compare_cont Eq ?p ?q] |- _ =>
      change (Pos.compare_cont Eq p q) with (p ?= q)%positive in H;
      destruct (Pos.compare_spec p q); subst
  end.

Lemma fle_flt_trans (x y z : float32) :
  fle x y = true -> flt y z = true -> flt x z = true.
Proof.
  unfold fle, flt, SFleb, SFltb.
  destruct x as [sx | sx | | sx mx ex], y as [sy | sy | | sy my ey],
           z as [sz | sz | | sz mz ez];
    try destruct sx; try destruct sy; try destruct sz;
    simpl; try congruence; intros H1 H2;
    order_cases; simpl in *; try congruence; try lia.
Qed.

(** X9.  Relaxing the max-tilt cosine never turns an acceptable tilt into an
    unacceptable one: if [isTiltOk] holds with threshold [c], it holds with
    any threshold [c' <= c]. *)
Theorem isTiltOk_antitone_in_threshold `{Libm}
    (a a' c c' : float32) (s : SensorRangeFinder) :
  fle c' c = true ->
  isTiltOk (setTilt a c s) = true ->
  isTiltOk (setTilt a' c' s) = true.
Proof.
  rewrite !setTilt_unfold. unfold isTiltOk.
  replace (_R_rng_to_earth_2_2 (with_range_cos_max_tilt c _))
    with (_R_rng_to_earth_2_2 s) by (destruct (fgt _ _); reflexivity).
  replace (_R_rng_to_earth_2_2 (with_range_cos_max_tilt c' _))
    with (_R_rng_to_earth_2_2 s) by (destruct (fgt _ _); reflexivity).
  cbn [_range_cos_max_tilt with_range_cos_max_tilt].
  unfold fgt. intros L T.
  exact (fle_flt_trans c' c (_R_rng_to_earth_2_2 s) L T).
Qed.

Lemma isTiltOk_antitone_in_threshold_witness :
  isTiltOk (setTilt (H := libm_first_order) zero half seen_level) = true.
Proof.
  apply (@isTiltOk_antitone_in_threshold libm_first_order
           half zero cos_max_tilt_default half seen_level);
    reflexivity.
Defined.

(** ** Whole numbers of microseconds in binary32 *)

Lemma pow2_step (d : Z) : 1 <= d -> 2 ^ d = 2 * 2 ^ (d - 1).
Proof.
  intro H. replace d with (Z.succ (d - 1)) at 1 by lia.
  apply Z.pow_succ_r. lia.
Qed.

Lemma digits2_pos_bounds (p : positive) :
  2 ^ (Zpos (digits2_pos p) - 1) <= Zpos p < 2 ^ Zpos (digits2_pos p).
Proof.
  induction p as [p IH | p IH | ]; simpl digits2_pos.
  - rewrite Pos2Z.inj_succ, Z.add_1_r || rewrite Pos2Z.inj_succ.
    replace (Z.succ (Zpos (digits2_pos p)) - 1) with (Zpos (digits2_pos p)) by lia.
    rewrite (pow2_step (Z.succ _)) by lia.
    replace (Z.succ (Zpos (digits2_pos p)) - 1) with (Zpos (digits2_pos p)) by lia.
    rewrite (pow2_step (Zpos (digits2_pos p))) in * by lia. lia.
  - rewrite Pos2Z.inj_succ.
    replace (Z.succ (Zpos (digits2_pos p)) - 1) with (Zpos (digits2_pos p)) by lia.
    rewrite (pow2_step (Z.succ _)) by lia.
    replace (Z.succ (Zpos (digits2_pos p)) - 1) with (Zpos (digits2_pos p)) by lia.
    rewrite (pow2_step (Zpos (digits2_pos p))) in * by lia. lia.
  - simpl. lia.
Qed.

Lemma digits2_pos_iter_xO (k p : positive) :
  Zpos (digits2_pos (Pos.iter xO p k)) = Zpos (digits2_pos p) + Zpos k.
Proof.
  induction k as [ | k IH] using Pos.peano_ind.
  - simpl. lia.
  - rewrite Pos.iter_succ. simpl digits2_pos. lia.
Qed.

Lemma iter_xO_value (k p : positive) :
  Zpos (Pos.iter xO p k) = Zpos p * 2 ^ Zpos k.
Proof.
  induction k as [ | k IH] using Pos.peano_ind.
  - simpl. lia.
  - rewrite Pos.iter_succ, Pos2Z.inj_xO, IH, Pos2Z.inj_succ, Z.pow_succ_r by lia.
    lia.
Qed.

Lemma binary_round_aux_exact (sx : bool) (m : positive) (e : Z) :
  Zpos (digits2_pos m) = 24 -> -149 <= e <= 104 ->
  binary_round_aux prec emax sx (Zpos m) e loc_Exact = S754_finite sx m e.
Proof.
  intros Hd He.
  assert (F : fexp prec emax (24 + e) - e = 0).
  { unfold fexp, emin, prec, emax. lia. }
  unfold binary_round_aux, shr_fexp. simpl Zdigits2. rewrite Hd, F.
  cbn [shr shr_record_of_loc shr_m shr_r shr_s loc_of_shr_record
       round_nearest_even Zdigits2].
  rewrite Hd, F.
  cbn [shr shr_record_of_loc shr_m].
  destruct (e <=? emax - prec) eqn:L; [reflexivity | ].
  unfold emax, prec in L. lia.
Qed.

Lemma of_Z_small (p : positive) :
  Zpos p < 2 ^ 24 ->
  of_Z (Zpos p) = S754_finite false (aligned p) (Zpos (digits2_pos p) - 24).
Proof.
  intro B.
  pose proof (digits2_pos_bounds p) as [L _].
  assert (D : Zpos (digits2_pos p) <= 24).
  { destruct (Z.le_gt_cases (Zpos (digits2_pos p)) 24) as [ | G]; [assumption | ].
    assert (2 ^ 24 <= 2 ^ (Zpos (digits2_pos p) - 1)) by (apply Z.pow_le_mono_r; lia).
    lia. }
  unfold of_Z, binary_normalize, binary_round.
  assert (F : fexp prec emax (Zpos (digits2_pos p) + 0) = Zpos (digits2_pos p) - 24).
  { unfold fexp, emin, prec, emax. lia. }
  rewrite F. unfold shl_align, aligned.
  replace (Zpos (digits2_pos p) - 24 - 0) with (- (24 - Zpos (digits2_pos p))) by lia.
  destruct (24 - Zpos (digits2_pos p)) as [ | k | k] eqn:K; simpl Z.opp; cbv iota.
  - replace (Zpos (digits2_pos p) - 24) with 0 by lia.
    apply binary_round_aux_exact; lia.
  - apply binary_round_aux_exact; [ | lia].
    rewrite digits2_pos_iter_xO. lia.
  - lia.
Qed.

Lemma flt_of_Z_two_seconds (n : Z) :
  0 <= n < 2 ^ 24 -> flt (of_Z n) two_seconds_us = (n <? 2000000).
Proof.
  intros [L U]. destruct n as [ | p | p]; [reflexivity | | lia].
  rewrite (of_Z_small p U).
  change two_seconds_us with (S754_finite false 16000000 (-3)).
  pose proof (digits2_pos_bounds p) as [Lo Hi].
  unfold flt, SFltb, SFcompare.
  destruct (Z.compare_spec (Zpos (digits2_pos p) - 24) (-3)) as [E | E | E].
  - assert (D : Zpos (digits2_pos p) = 21) by lia.
    unfold aligned. rewrite D. change (24 - 21) with 3. cbv iota.
    change (Pos.compare_cont Eq (Pos.iter xO p 3) 16000000)
      with (Pos.iter xO p 3 ?= 16000000)%positive.
    pose proof (iter_xO_value 3 p) as V. change (2 ^ 3) with 8 in V.
    destruct (Pos.compare_spec (Pos.iter xO p 3) 16000000) as [C | C | C];
      symmetry; [apply Z.ltb_ge | apply Z.ltb_lt | apply Z.ltb_ge]; lia.
  - symmetry. apply Z.ltb_lt.
    assert (2 ^ Zpos (digits2_pos p) <= 2 ^ 20) by (apply Z.pow_le_mono_r; lia).
    change (2 ^ 20) with 1048576 in *. lia.
  - symmetry. apply Z.ltb_ge.
    assert (2 ^ 21 <= 2 ^ (Zpos (digits2_pos p) - 1)) by (apply Z.pow_le_mono_r; lia).
    change (2 ^ 21) with 2097152 in *. lia.
Qed.

Lemma shr_1_m (mrs : shr_record) :
  0 <= shr_m mrs -> shr_m (shr_1 mrs) = shr_m mrs / 2.
Proof.
  destruct mrs as [m r s0]. cbn [shr_m]. intro P.
  destruct m as [ | [q | q | ] | q]; cbn [shr_1 shr_m]; try lia.
  - reflexivity.
  - apply (Z.div_unique _ 2 _ 1); lia.
  - apply (Z.div_unique _ 2 _ 0); lia.
  - reflexivity.
Qed.

Lemma pow2_pos (k : positive) : 0 < 2 ^ Zpos k.
Proof. apply Z.pow_pos_nonneg; lia. Qed.

Lemma pow2_double (n : positive) : 2 ^ Zpos n~0 = 2 ^ Zpos n * 2 ^ Zpos n.
Proof. rewrite <- Z.pow_add_r by lia. f_equal. lia. Qed.

Lemma iter_shr_1_m (n : positive) : forall mrs,
  0 <= shr_m mrs ->
  shr_m (iter_pos shr_1 n mrs) = shr_m mrs / 2 ^ Zpos n.
Proof.
  induction n as [n IH | n IH | ]; intros mrs P; simpl iter_pos.
  - pose proof (pow2_pos n) as Q.
    assert (P1 : 0 <= shr_m (shr_1 mrs))
      by (rewrite shr_1_m by assumption; apply Z.div_pos; lia).
    assert (P2 : 0 <= shr_m (iter_pos shr_1 n (shr_1 mrs)))
      by (rewrite IH by assumption; apply Z.div_pos; lia).
    rewrite (IH _ P2), (IH _ P1), shr_1_m by assumption.
    rewrite !Z.div_div by lia.
    f_equal. rewrite Pos2Z.inj_xI, Z.pow_add_r by lia.
    change (2 * Zpos n) with (Zpos n~0). rewrite pow2_double.
    change (2 ^ 1) with 2. lia.
  - pose proof (pow2_pos n) as Q.
    assert (P2 : 0 <= shr_m (iter_pos shr_1 n mrs))
      by (rewrite IH by assumption; apply Z.div_pos; lia).
    rewrite (IH _ P2), (IH _ P).
    rewrite Z.div_div by lia.
    f_equal. symmetry. apply pow2_double.
  - rewrite shr_1_m by assumption. reflexivity.
Qed.

Lemma round_nearest_even_range (m : Z) (l : location) :
  m <= round_nearest_even m l <= m + 1.
Proof.
  destruct l as [ | [ | | ]]; simpl; try lia.
  destruct (Z.even m); lia.
Qed.

Lemma of_Z_large (p : positive) :
  2 ^ 24 <= Zpos p ->
  exists e, 1 <= e
    /\ ((exists m, of_Z (Zpos p) = S754_finite false m e)
        \/ of_Z (Zpos p) = S754_infinity false).
Proof.
  intro B.
  pose proof (digits2_pos_bounds p) as [Lo Hi].
  assert (D : 25 <= Zpos (digits2_pos p)).
  { destruct (Z.le_gt_cases 25 (Zpos (digits2_pos p))) as [ | G]; [assumption | ].
    assert (2 ^ Zpos (digits2_pos p) <= 2 ^ 24) by (apply Z.pow_le_mono_r; lia).
    lia. }
  destruct (Zpos (digits2_pos p) - 24) as [ | k | k] eqn:K; try lia.
  assert (F : fexp prec emax (Zpos (digits2_pos p) + 0) = Zpos k).
  { unfold fexp, emin, prec, emax. lia. }
  unfold of_Z, binary_normalize, binary_round. rewrite F.
  unfold shl_align. change (Zpos k - 0) with (Zpos k). cbv iota.
  unfold binary_round_aux, shr_fexp. cbn [Zdigits2]. rewrite F.
  change (Zpos k - 0) with (Zpos k).
  cbn [shr shr_record_of_loc].
  set (mrs' := iter_pos shr_1 k _).
  assert (M1 : shr_m mrs' = Zpos p / 2 ^ Zpos k)
    by (unfold mrs'; rewrite iter_shr_1_m; cbn [shr_m]; [reflexivity | lia]).
  pose proof (pow2_pos k) as Pk.
  assert (E1 : 2 ^ Zpos (digits2_pos p) = 2 ^ Zpos k * 2 ^ 24).
  { rewrite <- Z.pow_add_r by lia. f_equal. lia. }
  assert (E2 : 2 ^ (Zpos (digits2_pos p) - 1) = 2 ^ Zpos k * 2 ^ 23).
  { rewrite <- Z.pow_add_r by lia. f_equal. lia. }
  assert (R1 : 2 ^ 23 <= shr_m mrs' < 2 ^ 24).
  { rewrite M1. split.
    - apply Z.div_le_lower_bound; lia.
    - apply Z.div_lt_upper_bound; lia. }
  pose proof (round_nearest_even_range (shr_m mrs') (loc_of_shr_record mrs')) as R2.
  destruct (round_nearest_even (shr_m mrs') (loc_of_shr_record mrs'))
    as [ | q | q] eqn:Q; try (change (2 ^ 23) with 8388608 in R1; lia).
  cbn [Zdigits2].
  pose proof (digits2_pos_bounds q) as [Lq Hq].
  assert (Dq : 24 <= Zpos (digits2_pos q) <= 25).
  { split.
    - destruct (Z.le_gt_cases 24 (Zpos (digits2_pos q))) as [ | G]; [assumption | ].
      assert (2 ^ Zpos (digits2_pos q) <= 2 ^ 23) by (apply Z.pow_le_mono_r; lia).
      lia.
    - destruct (Z.le_gt_cases (Zpos (digits2_pos q)) 25) as [ | G]; [assumption | ].
      assert (2 ^ 25 <= 2 ^ (Zpos (digits2_pos q) - 1)) by (apply Z.pow_le_mono_r; lia).
      change (2 ^ 25) with 33554432 in *. change (2 ^ 24) with 16777216 in *. lia. }
  assert (F2 : fexp prec emax (Zpos (digits2_pos q) + (0 + Zpos k)) - (0 + Zpos k)
               = Zpos (digits2_pos q) - 24).
  { unfold fexp, emin, prec, emax. lia. }
  rewrite F2.
  destruct (Zpos (digits2_pos q) - 24) as [ | j | j] eqn:J; try lia.
  - cbn [shr shr_m]. exists (0 + Zpos k). split; [lia | ].
    destruct (0 + Zpos k <=? emax - prec); [left; exists q; reflexivity | now right].
  - assert (j = 1%positive) by lia. subst j.
    cbn [shr iter_pos]. 
    assert (S1 : shr_m (shr_1 {| shr_m := Zpos q; shr_r := false; shr_s := false |})
                 = Zpos q / 2) by (apply shr_1_m; cbn [shr_m]; lia).
    assert (S2 : 2 ^ 22 <= Zpos q / 2).
    { apply Z.div_le_lower_bound; [lia | ].
      change (2 ^ 22) with 4194304. change (2 ^ 23) with 8388608 in *. lia. }
    rewrite S1.
    destruct (Zpos q / 2) as [ | q' | q'] eqn:Q'; try (change (2 ^ 22) with 4194304 in S2; lia).
    exists (0 + Zpos k + 1). split; [lia | ].
    destruct (0 + Zpos k + 1 <=? emax - prec); [left; exists q'; reflexivity | now right].
Qed.

Lemma flt_of_Z_two_seconds_all (n : Z) :
  0 <= n -> flt (of_Z n) two_seconds_us = (n <? 2000000).
Proof.
  intro L. destruct (Z.lt_ge_cases n (2 ^ 24)) as [U | U].
  - apply flt_of_Z_two_seconds. lia.
  - destruct n as [ | p | p]; try (change (2 ^ 24) with 16777216 in U; lia).
    replace (Zpos p <? 2000000) with false
      by (symmetry; apply Z.ltb_ge; change (2 ^ 24) with 16777216 in U; lia).
    change two_seconds_us with (S754_finite false 16000000 (-3)).
    destruct (of_Z_large p U) as [e [He [[m E] | E]]]; rewrite E.
    + unfold flt, SFltb, SFcompare.
      destruct (Z.compare_spec e (-3)); first [lia | reflexivity].
    + reflexivity.
Qed.

(** X10.  When the filtered interval holds a whole number [n >= 0] of
    microseconds converted to [float], the data is continuous exactly when
    [n < 2000000]: the literal [2e6f] is exact and rounding of [n] never
    crosses it. *)
Theorem continuity_of_whole_microseconds (n : Z) (s : SensorRangeFinder) :
  0 <= n ->
  isRangeDataContinuous (with_dt_last_range_update_filt_us (of_Z n) s)
  = (n <? 2000000).
Proof.
  intro B. unfold isRangeDataContinuous.
  cbn [_dt_last_range_update_filt_us with_dt_last_range_update_filt_us].
  now apply flt_of_Z_two_seconds_all.
Qed.

Lemma continuity_of_whole_microseconds_witness :
  isRangeDataContinuous
    (with_dt_last_range_update_filt_us (of_Z 1999999) default_constructed)
  = (1999999 <? 2000000).
Proof.
  apply (continuity_of_whole_microseconds 1999999 default_constructed). lia.
Defined.

(** ** Edge values *)

(** X11.  A NaN never passes a comparison: [isTiltOk] is false when the
    cached cosine or the configured max-tilt cosine is a NaN, and the data
    is not continuous when the filtered interval is a NaN or plus infinity.
    The conversion to [bool] goes the other way: a NaN limit reads back as
    [true] through [getValidMinVal] and [getValidMaxVal]. *)
Theorem nan_and_infinity_edges `{Libm}
    (a lim : float32) (s : SensorRangeFinder) :
  isTiltOk (with_R_rng_to_earth_2_2 S754_nan s) = false
  /\ isTiltOk (setTilt a S754_nan s) = false
  /\ isRangeDataContinuous
       (with_dt_last_range_update_filt_us S754_nan s) = false
  /\ isRangeDataContinuous
       (with_dt_last_range_update_filt_us (S754_infinity false) s) = false
  /\ getValidMinVal (setLimits S754_nan lim s) = true
  /\ getValidMaxVal (setLimits lim S754_nan s) = true.
Proof.
  repeat split; try reflexivity.
  - unfold isTiltOk, fgt, SFltb. cbn.
    now destruct (_range_cos_max_tilt s).
  - rewrite setTilt_unfold. reflexivity.
Qed.

(** ** Healthy data *)

(** X12.  How each operation moves [isNewHealthyData] (and with it
    [isDelayedHealthyData]): a new delayed sample is reported healthy on the
    validity latched before it arrived, [setDataReadiness] and [setValidity]
    replace their side of the conjunction, and nothing else changes it. *)
Theorem healthy_data_after_each_operation `{Libm}
    (o : operation) (s : SensorRangeFinder) :
  isNewHealthyData (step o s)
  = match o with
    | OpSetDelayedSample _ => isHealthy s
    | OpSetDataReadiness is_ready => is_ready && isHealthy s
    | OpSetValidity is_valid => _range_data_ready s && is_valid
    | _ => isNewHealthyData s
    end.
Proof.
  destruct o; try reflexivity.
  cbn [step]. rewrite setTilt_unfold. destruct (fgt _ _); reflexivity.
Qed.
